(** * OZMirror configuration service: a shallow embedding and its properties

    The development follows the Python package [services/config/app]:
    - [models.py]        the pydantic models (one Rocq module per class),
    - [database.py]      the four tables, seeding and the CRUD functions,
    - [dependencies.py]  the API-key gate,
    - [routes/*.py]      the HTTP handlers.

    Conventions of the embedding.
    - A JSON value (what a MySQL JSON column holds, what [model_dump]
      produces, what sits behind [Dict[str, Any]]) is a term of [json];
      a Python [dict] with string keys is a [gmap string _].  Floating point
      numbers inside opaque configs are not represented.
    - A table with a primary key is a [gmap] from the key to the remaining
      columns.  Keys are compared exactly; the column length limits of the
      schema and storage failures are not modelled.
    - A Python function that may raise returns a [result]; a function that
      commits returns the new [Session].  Every write of the source is
      followed directly by its [commit], so a raised exception leaves the
      session as it was.
    - [logger] calls have no effect on responses or on the store and are
      left out. *)

From Stdlib Require Import ZArith QArith.
From stdpp Require Import base option list strings gmap.

Open Scope Z_scope.

(** ** JSON values *)

#[warnings="-register-all"]
Inductive json :=
  | JNull
  | JBool (b : bool)
  | JInt (z : Z)
  | JStr (s : string)
  | JArr (l : list json)
  | JObj (m : gmap string json).

(** ** Exceptions and results *)

Inductive exn :=
  | HTTPException (status_code : Z) (detail : string) (headers : list (string * string))
  | NoResultFound                 (* sqlalchemy: [.one()] found no row *)
  | KeyError (key : string)       (* [d[k]] / [del d[k]] on a missing key *)
  | ValidationError               (* pydantic: a model rejected its input *)
  | AttributeError                (* [.items()] / [.keys()] on a value that is no dict *)
  | TypeError.                    (* [compare_digest] on non-ASCII text *)

Inductive result (A : Type) :=
  | Ok (a : A)
  | Raise (e : exn).
Arguments Ok {A} a.
Arguments Raise {A} e.

#[global] Instance result_ret : MRet result := @Ok.
#[global] Instance result_bind : MBind result :=
  λ A B f r, match r with Ok a => f a | Raise e => Raise e end.

(** A pydantic validator yields [None] on rejection; the constructor call
    raises [ValidationError].  (Keyword expansion of a stored value that is
    no object raises [TypeError] instead; neither is caught anywhere, so both
    end in the same response.) *)
Definition construct {A} (o : option A) : result A :=
  match o with Some a => Ok a | None => Raise ValidationError end.

(** ** pydantic field validation

    The models are validated in pydantic's default (lax) mode, which may
    coerce some inputs of another JSON type.  The embedding leaves the
    coercions open: all it uses is that a value of the right type is
    accepted unchanged. *)

Class Coercions := {
  validate_int : json → option Z;
  validate_str : json → option string;
  validate_int_JInt z : validate_int (JInt z) = Some z;
  validate_str_JStr s : validate_str (JStr s) = Some s }.

Definition strict_int (v : json) : option Z :=
  match v with JInt z => Some z | _ => None end.
Definition strict_str (v : json) : option string :=
  match v with JStr s => Some s | _ => None end.

(** The validators that accept exactly the declared JSON type. *)
#[global] Instance strict : Coercions :=
  {| validate_int := strict_int; validate_str := strict_str;
     validate_int_JInt := λ _, eq_refl; validate_str_JStr := λ _, eq_refl |}.

(** [ConfigDict(extra="forbid")]: every key must be a declared field. *)
Definition forbid_extra (fields : gset string) (m : gmap string json) : option unit :=
  if bool_decide (dom m ⊆ fields) then Some () else None.

(** A field without default. *)
Definition required {A} (f : json → option A) (m : gmap string json) (k : string) : option A :=
  m !! k ≫= f.

(** A field with a default, used when the key is absent. *)
Definition with_default {A} (f : json → option A) (d : A) (m : gmap string json) (k : string)
    : option A :=
  match m !! k with None => Some d | Some v => f v end.

(** [Optional[T]] *)
Definition validate_optional {A} (f : json → option A) (v : json) : option (option A) :=
  match v with JNull => Some None | _ => Some <$> f v end.
Definition dump_optional {A} (f : A → json) (o : option A) : json :=
  match o with None => JNull | Some a => f a end.

(** [List[T]] *)
Definition validate_list {A} (f : json → option A) (v : json) : option (list A) :=
  match v with JArr l => mapM f l | _ => None end.

(** Validation of every value of a dict: all succeed or the whole fails. *)
Definition map_validate {A} (f : json → option A) (m : gmap string json)
    : option (gmap string A) :=
  if decide (map_Forall (λ _ v, is_Some (f v)) m) then Some (omap f m) else None.

(** [Dict[str, T]] *)
Definition validate_dict {A} (f : json → option A) (v : json) : option (gmap string A) :=
  match v with JObj m => map_validate f m | _ => None end.

(** [Dict[str, Any]]: the values are opaque. *)
Definition validate_any_dict (v : json) : option (gmap string json) :=
  match v with JObj m => Some m | _ => None end.

(** ** models.py *)

Module GridItem.
Record t := mk {
  i : string; x : Z; y : Z; w : Z; h : Z;
  minW : option Z; minH : option Z; maxW : option Z; maxH : option Z }.

Definition fields : gset string :=
  {[ "i"; "x"; "y"; "w"; "h"; "minW"; "minH"; "maxW"; "maxH" ]}.

Definition validate `{Coercions} (v : json) : option t :=
  match v with
  | JObj m =>
      _ ← forbid_extra fields m;
      i ← required validate_str m "i";
      x ← required validate_int m "x";
      y ← required validate_int m "y";
      w ← required validate_int m "w";
      h ← required validate_int m "h";
      minW ← with_default (validate_optional validate_int) None m "minW";
      minH ← with_default (validate_optional validate_int) None m "minH";
      maxW ← with_default (validate_optional validate_int) None m "maxW";
      maxH ← with_default (validate_optional validate_int) None m "maxH";
      Some (mk i x y w h minW minH maxW maxH)
  | _ => None
  end.

Definition model_dump (g : t) : json :=
  JObj (<["i" := JStr (i g)]> $ <["x" := JInt (x g)]> $ <["y" := JInt (y g)]> $
        <["w" := JInt (w g)]> $ <["h" := JInt (h g)]> $
        <["minW" := dump_optional JInt (minW g)]> $
        <["minH" := dump_optional JInt (minH g)]> $
        <["maxW" := dump_optional JInt (maxW g)]> $
        <["maxH" := dump_optional JInt (maxH g)]> ∅).
End GridItem.

Module ModuleInstanceConfig.
Record t := mk { moduleId : string; config : gmap string json }.

Definition fields : gset string := {[ "moduleId"; "config" ]}.

Definition validate `{Coercions} (v : json) : option t :=
  match v with
  | JObj m =>
      _ ← forbid_extra fields m;
      moduleId ← required validate_str m "moduleId";
      config ← with_default validate_any_dict ∅ m "config";
      Some (mk moduleId config)
  | _ => None
  end.

Definition model_dump (c : t) : json :=
  JObj (<["moduleId" := JStr (moduleId c)]> $ <["config" := JObj (config c)]> ∅).

(** [entry.config = config] *)
Definition set_config (cfg : gmap string json) (c : t) : t := mk (moduleId c) cfg.
End ModuleInstanceConfig.

Module LayoutProfile.
Record t := mk {
  grid : list GridItem.t;
  moduleConfigs : gmap string ModuleInstanceConfig.t }.

Definition fields : gset string := {[ "grid"; "moduleConfigs" ]}.

Definition validate `{Coercions} (v : json) : option t :=
  match v with
  | JObj m =>
      _ ← forbid_extra fields m;
      grid ← required (validate_list GridItem.validate) m "grid";
      moduleConfigs ← required (validate_dict ModuleInstanceConfig.validate) m "moduleConfigs";
      Some (mk grid moduleConfigs)
  | _ => None
  end.

Definition model_dump (p : t) : json :=
  JObj (<["grid" := JArr (GridItem.model_dump <$> grid p)]> $
        <["moduleConfigs" := JObj (ModuleInstanceConfig.model_dump <$> moduleConfigs p)]> ∅).
End LayoutProfile.

Module LayoutData.
Record t := mk {
  activeProfile : string;
  layouts : gmap string LayoutProfile.t }.
End LayoutData.

Module UpdateLayoutRequest.
Record t := mk {
  profileName : string;
  grid : list GridItem.t;
  moduleConfigs : gmap string ModuleInstanceConfig.t }.
End UpdateLayoutRequest.

Module CreateProfileRequest.
Record t := mk { name : string; copyFrom : string }.
End CreateProfileRequest.

Module GridConstraints.
Record t := mk {
  minW : option Z; minH : option Z; maxW : option Z; maxH : option Z;
  defaultW : option Z; defaultH : option Z }.

Definition fields : gset string :=
  {[ "minW"; "minH"; "maxW"; "maxH"; "defaultW"; "defaultH" ]}.

Definition validate `{Coercions} (v : json) : option t :=
  match v with
  | JObj m =>
      _ ← forbid_extra fields m;
      minW ← with_default (validate_optional validate_int) None m "minW";
      minH ← with_default (validate_optional validate_int) None m "minH";
      maxW ← with_default (validate_optional validate_int) None m "maxW";
      maxH ← with_default (validate_optional validate_int) None m "maxH";
      defaultW ← with_default (validate_optional validate_int) None m "defaultW";
      defaultH ← with_default (validate_optional validate_int) None m "defaultH";
      Some (mk minW minH maxW maxH defaultW defaultH)
  | _ => None
  end.

Definition model_dump (c : t) : json :=
  JObj (<["minW" := dump_optional JInt (minW c)]> $
        <["minH" := dump_optional JInt (minH c)]> $
        <["maxW" := dump_optional JInt (maxW c)]> $
        <["maxH" := dump_optional JInt (maxH c)]> $
        <["defaultW" := dump_optional JInt (defaultW c)]> $
        <["defaultH" := dump_optional JInt (defaultH c)]> ∅).
End GridConstraints.

Module ModuleManifest.
Record t := mk {
  id : string;
  name : string;
  description : string;
  version : string;
  author : string;
  icon : option string;
  defaultConfig : gmap string json;
  configSchema : option (gmap string json);
  gridConstraints : option GridConstraints.t }.

Definition fields : gset string :=
  {[ "id"; "name"; "description"; "version"; "author"; "icon";
     "defaultConfig"; "configSchema"; "gridConstraints" ]}.

Definition validate `{Coercions} (v : json) : option t :=
  match v with
  | JObj m =>
      _ ← forbid_extra fields m;
      id ← required validate_str m "id";
      name ← required validate_str m "name";
      description ← with_default validate_str "" m "description";
      version ← required validate_str m "version";
      author ← with_default validate_str "" m "author";
      icon ← with_default (validate_optional validate_str) None m "icon";
      defaultConfig ← with_default validate_any_dict ∅ m "defaultConfig";
      configSchema ← with_default (validate_optional validate_any_dict) None m "configSchema";
      gridConstraints ←
        with_default (validate_optional GridConstraints.validate) None m "gridConstraints";
      Some (mk id name description version author icon defaultConfig configSchema
               gridConstraints)
  | _ => None
  end.

Definition model_dump (mf : t) : json :=
  JObj (<["id" := JStr (id mf)]> $ <["name" := JStr (name mf)]> $
        <["description" := JStr (description mf)]> $
        <["version" := JStr (version mf)]> $
        <["author" := JStr (author mf)]> $
        <["icon" := dump_optional JStr (icon mf)]> $
        <["defaultConfig" := JObj (defaultConfig mf)]> $
        <["configSchema" := dump_optional JObj (configSchema mf)]> $
        <["gridConstraints" := dump_optional GridConstraints.model_dump (gridConstraints mf)]> ∅).
End ModuleManifest.

Module RegisteredModule.
Record t := mk {
  id : string;
  name : string;
  serviceUrl : string;
  manifest : ModuleManifest.t;
  status : string }.

Definition fields : gset string := {[ "id"; "name"; "serviceUrl"; "manifest"; "status" ]}.

Definition validate `{Coercions} (v : json) : option t :=
  match v with
  | JObj m =>
      _ ← forbid_extra fields m;
      id ← required validate_str m "id";
      name ← required validate_str m "name";
      serviceUrl ← required validate_str m "serviceUrl";
      manifest ← required ModuleManifest.validate m "manifest";
      status ← with_default validate_str "online" m "status";
      Some (mk id name serviceUrl manifest status)
  | _ => None
  end.
End RegisteredModule.

Module RegisterModuleRequest.
Record t := mk {
  id : string;
  name : string;
  serviceUrl : string;
  manifest : ModuleManifest.t;
  status : string }.

Definition model_dump (b : t) : json :=
  JObj (<["id" := JStr (id b)]> $ <["name" := JStr (name b)]> $
        <["serviceUrl" := JStr (serviceUrl b)]> $
        <["manifest" := ModuleManifest.model_dump (manifest b)]> $
        <["status" := JStr (status b)]> ∅).
End RegisterModuleRequest.

(** The registry entry with the fields of a registration request. *)
Definition module_of_request (b : RegisterModuleRequest.t) : RegisteredModule.t :=
  RegisteredModule.mk (RegisterModuleRequest.id b) (RegisterModuleRequest.name b)
    (RegisterModuleRequest.serviceUrl b) (RegisterModuleRequest.manifest b)
    (RegisterModuleRequest.status b).

Module GlobalSettings.
Record t := mk {
  theme : string;
  kiosk : bool;
  cursorTimeout : Z;
  fontScale : Q;
  autoStart : bool }.
End GlobalSettings.

Module Theme.
Record t := mk {
  id : string;
  name : string;
  variables : gmap string string }.

(** The [variables] dict as a JSON column holds it. *)
Definition variables_json (th : t) : json := JObj (JStr <$> variables th).
End Theme.

(** ** database.py *)

Module database.

(** *** ORM rows: the columns other than the primary key *)

Module LayoutDataRow.
Record t := mk { active_profile : string; profiles : json }.
Definition set_active_profile (v : string) (r : t) : t := mk v (profiles r).
Definition set_profiles (v : json) (r : t) : t := mk (active_profile r) v.
End LayoutDataRow.

Module ModuleRow.
Record t := mk { name : string; service_url : string; manifest : json; status : string }.
Definition set_name (v : string) (r : t) : t := mk v (service_url r) (manifest r) (status r).
Definition set_service_url (v : string) (r : t) : t := mk (name r) v (manifest r) (status r).
Definition set_manifest (v : json) (r : t) : t := mk (name r) (service_url r) v (status r).
Definition set_status (v : string) (r : t) : t := mk (name r) (service_url r) (manifest r) v.
End ModuleRow.

Module SettingsRow.
Record t := mk {
  theme : string; kiosk : bool; cursor_timeout : Z; font_scale : Q; auto_start : bool }.
Definition set_theme (v : string) (r : t) : t :=
  mk v (kiosk r) (cursor_timeout r) (font_scale r) (auto_start r).
Definition set_kiosk (v : bool) (r : t) : t :=
  mk (theme r) v (cursor_timeout r) (font_scale r) (auto_start r).
Definition set_cursor_timeout (v : Z) (r : t) : t :=
  mk (theme r) (kiosk r) v (font_scale r) (auto_start r).
Definition set_font_scale (v : Q) (r : t) : t :=
  mk (theme r) (kiosk r) (cursor_timeout r) v (auto_start r).
Definition set_auto_start (v : bool) (r : t) : t :=
  mk (theme r) (kiosk r) (cursor_timeout r) (font_scale r) v.
End SettingsRow.

Module ThemeRow.
Record t := mk { name : string; variables : json }.
Definition set_name (v : string) (r : t) : t := mk v (variables r).
Definition set_variables (v : json) (r : t) : t := mk (name r) v.
End ThemeRow.

(** The state a [Session] gives access to: the four tables. *)
Record Session := mkSession {
  layout_data : gmap Z LayoutDataRow.t;
  modules : gmap string ModuleRow.t;
  settings : gmap Z SettingsRow.t;
  themes : gmap string ThemeRow.t }.

Definition empty_session : Session := mkSession ∅ ∅ ∅ ∅.

Definition set_layout_data (f : gmap Z LayoutDataRow.t → gmap Z LayoutDataRow.t)
    (db : Session) : Session :=
  mkSession (f (layout_data db)) (modules db) (settings db) (themes db).
Definition set_modules (f : gmap string ModuleRow.t → gmap string ModuleRow.t)
    (db : Session) : Session :=
  mkSession (layout_data db) (f (modules db)) (settings db) (themes db).
Definition set_settings (f : gmap Z SettingsRow.t → gmap Z SettingsRow.t)
    (db : Session) : Session :=
  mkSession (layout_data db) (modules db) (f (settings db)) (themes db).
Definition set_themes (f : gmap string ThemeRow.t → gmap string ThemeRow.t)
    (db : Session) : Session :=
  mkSession (layout_data db) (modules db) (settings db) (f (themes db)).

(** [query.filter(pk == k).one()] *)
Definition one {K} `{Countable K} {A} (tbl : gmap K A) (k : K) : result A :=
  match tbl !! k with Some r => Ok r | None => Raise NoResultFound end.

(** [query.count()] *)
Definition count {K} `{Countable K} {A} (tbl : gmap K A) : nat := size tbl.

(** *** Built-in seed data *)

Definition theme_variables (bg surface accent text text_secondary border font : string)
    : json :=
  JObj (<["--color-bg" := JStr bg]> $ <["--color-surface" := JStr surface]> $
        <["--color-accent" := JStr accent]> $ <["--color-text" := JStr text]> $
        <["--color-text-secondary" := JStr text_secondary]> $
        <["--color-border" := JStr border]> $ <["--font-base" := JStr font]> ∅).

Definition _BUILTIN_THEMES : list (string * ThemeRow.t) :=
  [ ("dark", ThemeRow.mk "Dark"
       (theme_variables "#0d0d0d" "#1a1a1a" "#4fc3f7" "#e0e0e0" "#9e9e9e" "#2a2a2a"
          "'Inter', sans-serif"));
    ("light", ThemeRow.mk "Light"
       (theme_variables "#f5f5f5" "#ffffff" "#0288d1" "#212121" "#616161" "#e0e0e0"
          "'Inter', sans-serif"));
    ("amoled", ThemeRow.mk "AMOLED"
       (theme_variables "#000000" "#0a0a0a" "#00e5ff" "#e0e8f0" "#78909c" "#111111"
          "'Space Mono', monospace")) ].

Definition _DEFAULT_LAYOUT_PROFILES : json :=
  JObj {[ "default" :=
    JObj (<["grid" :=
             JArr [ JObj (<["i" := JStr "clock_01"]> $ <["x" := JInt 0]> $
                          <["y" := JInt 0]> $ <["w" := JInt 4]> $ <["h" := JInt 3]> ∅) ]]> $
          <["moduleConfigs" :=
             JObj {[ "clock_01" :=
               JObj (<["moduleId" := JStr "clock"]> $
                     <["config" :=
                        JObj (<["format" := JStr "HH:mm:ss"]> $
                              <["timezone" := JStr "UTC"]> $
                              <["showDate" := JBool true]> ∅)]> ∅) ]}]> ∅) ]}.

(** *** Seeding *)

Definition default_settings_row : SettingsRow.t :=
  SettingsRow.mk "dark" false 3000 1 false.

Definition default_layout_row : LayoutDataRow.t :=
  LayoutDataRow.mk "default" _DEFAULT_LAYOUT_PROFILES.

(** [for t in _BUILTIN_THEMES: db.add(ThemeRow(...))] *)
Definition add_themes (rows : list (string * ThemeRow.t)) (tbl : gmap string ThemeRow.t)
    : gmap string ThemeRow.t :=
  foldl (λ tbl t, <[t.1 := t.2]> tbl) tbl rows.

Definition seed_defaults (db : Session) : Session :=
  let db :=
    if decide (count (settings db) = 0%nat)
    then set_settings (insert 1 default_settings_row) db else db in
  let db :=
    if decide (count (layout_data db) = 0%nat)
    then set_layout_data (insert 1 default_layout_row) db else db in
  if decide (count (themes db) = 0%nat)
  then set_themes (add_themes _BUILTIN_THEMES) db else db.

Section crud.
Context `{Coercions}.

(** *** Layout *)

Definition get_layout (db : Session) : result LayoutData.t :=
  row ← one (layout_data db) 1;
  match LayoutDataRow.profiles row with
  | JObj items =>
      layouts ← construct (map_validate LayoutProfile.validate items);
      Ok (LayoutData.mk (LayoutDataRow.active_profile row) layouts)
  | _ => Raise AttributeError
  end.

Definition save_layout (db : Session) (layout : LayoutData.t) : result Session :=
  row ← one (layout_data db) 1;
  let row := LayoutDataRow.set_active_profile (LayoutData.activeProfile layout) row in
  let row :=
    LayoutDataRow.set_profiles
      (JObj (LayoutProfile.model_dump <$> LayoutData.layouts layout)) row in
  Ok (set_layout_data (insert 1 row) db).

(** The order of the returned names is that of the stored dict; the
    callers only test membership. *)
Definition get_profiles (db : Session) : result (list string) :=
  row ← one (layout_data db) 1;
  match LayoutDataRow.profiles row with
  | JObj items => Ok (map_to_list items).*1
  | _ => Raise AttributeError
  end.

Definition create_profile (db : Session) (name copy_from : string) : result Session :=
  layout ← get_layout db;
  match LayoutData.layouts layout !! copy_from with
  | None => Raise (KeyError copy_from)
  | Some source =>
      copy ← construct (LayoutProfile.validate (LayoutProfile.model_dump source));
      save_layout db
        (LayoutData.mk (LayoutData.activeProfile layout)
           (<[name := copy]> (LayoutData.layouts layout)))
  end.

Definition delete_profile (db : Session) (name : string) : result Session :=
  layout ← get_layout db;
  match LayoutData.layouts layout !! name with
  | None => Raise (KeyError name)
  | Some _ =>
      let layouts := delete name (LayoutData.layouts layout) in
      let activeProfile :=
        if decide (LayoutData.activeProfile layout = name)
        then "default" else LayoutData.activeProfile layout in
      save_layout db (LayoutData.mk activeProfile layouts)
  end.

Definition upsert_profile_content (db : Session) (profile_name : string)
    (profile : LayoutProfile.t) : result Session :=
  layout ← get_layout db;
  save_layout db
    (LayoutData.mk (LayoutData.activeProfile layout)
       (<[profile_name := profile]> (LayoutData.layouts layout))).

(** *** Module registry *)

Definition row_to_module (id : string) (r : ModuleRow.t) : result RegisteredModule.t :=
  manifest ← construct (ModuleManifest.validate (ModuleRow.manifest r));
  Ok (RegisteredModule.mk id (ModuleRow.name r) (ModuleRow.service_url r) manifest
        (ModuleRow.status r)).

Definition get_modules (db : Session) : result (list RegisteredModule.t) :=
  mapM (λ kr, row_to_module kr.1 kr.2) (map_to_list (modules db)).

Definition get_module (db : Session) (module_id : string)
    : result (option RegisteredModule.t) :=
  match modules db !! module_id with
  | None => Ok None
  | Some row => m ← row_to_module module_id row; Ok (Some m)
  end.

Definition register_module (db : Session) (module : RegisteredModule.t) : Session :=
  match modules db !! RegisteredModule.id module with
  | Some existing =>
      let existing := ModuleRow.set_name (RegisteredModule.name module) existing in
      let existing :=
        ModuleRow.set_service_url (RegisteredModule.serviceUrl module) existing in
      let existing :=
        ModuleRow.set_manifest
          (ModuleManifest.model_dump (RegisteredModule.manifest module)) existing in
      let existing := ModuleRow.set_status (RegisteredModule.status module) existing in
      set_modules (insert (RegisteredModule.id module) existing) db
  | None =>
      set_modules
        (insert (RegisteredModule.id module)
           (ModuleRow.mk (RegisteredModule.name module)
              (RegisteredModule.serviceUrl module)
              (ModuleManifest.model_dump (RegisteredModule.manifest module))
              (RegisteredModule.status module)))
        db
  end.

(** *** Module instance config (lives inside the active layout profile) *)

Definition get_instance_config (db : Session) (module_id instance_id : string)
    : result (option (gmap string json)) :=
  layout ← get_layout db;
  match LayoutData.layouts layout !! LayoutData.activeProfile layout with
  | None => Ok None
  | Some profile =>
      match LayoutProfile.moduleConfigs profile !! instance_id with
      | None =>
          m ← get_module db module_id;
          match m with
          | Some m =>
              Ok (Some (ModuleManifest.defaultConfig (RegisteredModule.manifest m)))
          | None => Ok None
          end
      | Some entry => Ok (Some (ModuleInstanceConfig.config entry))
      end
  end.

Definition set_instance_config (db : Session) (instance_id : string)
    (config : gmap string json) : result (bool * Session) :=
  layout ← get_layout db;
  match LayoutData.layouts layout !! LayoutData.activeProfile layout with
  | None => Ok (false, db)
  | Some profile =>
      match LayoutProfile.moduleConfigs profile !! instance_id with
      | None => Ok (false, db)
      | Some entry =>
          let profile :=
            LayoutProfile.mk (LayoutProfile.grid profile)
              (<[instance_id := ModuleInstanceConfig.set_config config entry]>
                 (LayoutProfile.moduleConfigs profile)) in
          let layout :=
            LayoutData.mk (LayoutData.activeProfile layout)
              (<[LayoutData.activeProfile layout := profile]> (LayoutData.layouts layout)) in
          db' ← save_layout db layout;
          Ok (true, db')
      end
  end.

(** *** Settings *)

Definition get_settings (db : Session) : result GlobalSettings.t :=
  row ← one (settings db) 1;
  Ok (GlobalSettings.mk (SettingsRow.theme row) (SettingsRow.kiosk row)
        (SettingsRow.cursor_timeout row) (SettingsRow.font_scale row)
        (SettingsRow.auto_start row)).

Definition save_settings (db : Session) (s : GlobalSettings.t) : result Session :=
  row ← one (settings db) 1;
  let row := SettingsRow.set_theme (GlobalSettings.theme s) row in
  let row := SettingsRow.set_kiosk (GlobalSettings.kiosk s) row in
  let row := SettingsRow.set_cursor_timeout (GlobalSettings.cursorTimeout s) row in
  let row := SettingsRow.set_font_scale (GlobalSettings.fontScale s) row in
  let row := SettingsRow.set_auto_start (GlobalSettings.autoStart s) row in
  Ok (set_settings (insert 1 row) db).

(** *** Themes *)

Definition row_to_theme (id : string) (r : ThemeRow.t) : result Theme.t :=
  variables ← construct (validate_dict validate_str (ThemeRow.variables r));
  Ok (Theme.mk id (ThemeRow.name r) variables).

Definition get_themes (db : Session) : result (list Theme.t) :=
  mapM (λ kr, row_to_theme kr.1 kr.2) (map_to_list (themes db)).

Definition upsert_theme (db : Session) (theme : Theme.t) : Session :=
  match themes db !! Theme.id theme with
  | Some existing =>
      let existing := ThemeRow.set_name (Theme.name theme) existing in
      let existing := ThemeRow.set_variables (Theme.variables_json theme) existing in
      set_themes (insert (Theme.id theme) existing) db
  | None =>
      set_themes
        (insert (Theme.id theme)
           (ThemeRow.mk (Theme.name theme) (Theme.variables_json theme)))
        db
  end.
End crud.
End database.

(** ** dependencies.py *)

Module dependencies.

(** A character is ASCII when its high bit is clear. *)
Definition ascii_char (c : Ascii.ascii) : bool :=
  match c with Ascii.Ascii _ _ _ _ _ _ _ b7 => negb b7 end.

Fixpoint is_ascii (s : string) : bool :=
  match s with
  | EmptyString => true
  | String c s => ascii_char c && is_ascii s
  end.

(** [secrets.compare_digest] on two [str]: the comparison is defined for
    ASCII-only text and raises [TypeError] otherwise.  A header value
    reaches the handler decoded byte by byte, so every character of a
    [string] can occur in [api_key]. *)
Definition compare_digest (a b : string) : result bool :=
  if is_ascii a && is_ascii b then Ok (bool_decide (a = b)) else Raise TypeError.

(** [expected] is the value of the environment variable [API_KEY]
    ([None] when unset), [api_key] the [X-API-Key] header of the request. *)
Definition require_api_key (API_KEY : option string) (api_key : option string)
    : result unit :=
  let expected := default "" API_KEY in
  if decide (expected = "")
  then Raise (HTTPException 500 "Service not configured for authenticated requests" [])
  else
    let unauthorized : result unit :=
      Raise (HTTPException 401 "Invalid or missing API key" [("WWW-Authenticate", "ApiKey")]) in
    match api_key with
    | None => unauthorized
    | Some api_key =>
        if decide (api_key = "") then unauthorized
        else
          matched ← compare_digest api_key expected;
          if (matched : bool) then Ok () else unauthorized
    end.
End dependencies.

(** ** routes *)

(** What a handler returns on success, before serialisation. *)
Inductive content :=
  | SuccessResponse
  | LayoutContent (layout : LayoutData.t)
  | NamesContent (names : list string)
  | ModulesContent (mods : list RegisteredModule.t)
  | ModuleContent (m : RegisteredModule.t)
  | ConfigContent (config : gmap string json)
  | SettingsContent (s : GlobalSettings.t)
  | ThemesContent (l : list Theme.t).

Definition HTTP_400_BAD_REQUEST : Z := 400.
Definition HTTP_401_UNAUTHORIZED : Z := 401.
Definition HTTP_404_NOT_FOUND : Z := 404.
Definition HTTP_409_CONFLICT : Z := 409.
Definition HTTP_500_INTERNAL_SERVER_ERROR : Z := 500.

Module routes.
Import database.

Module layout.
Section handlers.
Context `{Coercions}.

Definition get_layout (db : Session) : result content :=
  layout ← database.get_layout db; Ok (LayoutContent layout).

Definition update_layout (body : UpdateLayoutRequest.t) (db : Session)
    : result (content * Session) :=
  let profile :=
    LayoutProfile.mk (UpdateLayoutRequest.grid body)
      (UpdateLayoutRequest.moduleConfigs body) in
  db' ← upsert_profile_content db (UpdateLayoutRequest.profileName body) profile;
  Ok (SuccessResponse, db').

Definition list_profiles (db : Session) : result content :=
  names ← get_profiles db; Ok (NamesContent names).

Definition create_profile (body : CreateProfileRequest.t) (db : Session)
    : result (content * Session) :=
  profiles ← get_profiles db;
  if decide (CreateProfileRequest.name body ∈ profiles) then
    Raise (HTTPException HTTP_409_CONFLICT
             ("Profile '" +:+ CreateProfileRequest.name body +:+ "' already exists") [])
  else if decide (CreateProfileRequest.copyFrom body ∉ profiles) then
    Raise (HTTPException HTTP_404_NOT_FOUND
             ("Source profile '" +:+ CreateProfileRequest.copyFrom body
                +:+ "' not found") [])
  else
    db' ← database.create_profile db (CreateProfileRequest.name body)
            (CreateProfileRequest.copyFrom body);
    Ok (SuccessResponse, db').

Definition delete_profile (name : string) (db : Session)
    : result (content * Session) :=
  if decide (name = "default") then
    Raise (HTTPException HTTP_400_BAD_REQUEST
             "The 'default' profile cannot be deleted" [])
  else
    profiles ← get_profiles db;
    if decide (name ∉ profiles) then
      Raise (HTTPException HTTP_404_NOT_FOUND
               ("Profile '" +:+ name +:+ "' not found") [])
    else
      db' ← database.delete_profile db name;
      Ok (SuccessResponse, db').
End handlers.
End layout.

Module modules.
Section handlers.
Context `{Coercions}.

Definition list_modules (db : Session) : result content :=
  mods ← get_modules db; Ok (ModulesContent mods).

Definition get_module (module_id : string) (db : Session) : result content :=
  m ← database.get_module db module_id;
  match m with
  | None =>
      Raise (HTTPException HTTP_404_NOT_FOUND
               ("Module '" +:+ module_id +:+ "' not found") [])
  | Some m => Ok (ModuleContent m)
  end.

Definition register_module (body : RegisterModuleRequest.t) (db : Session)
    : result (content * Session) :=
  module ← construct (RegisteredModule.validate (RegisterModuleRequest.model_dump body));
  Ok (SuccessResponse, database.register_module db module).

Definition get_instance_config (module_id instance_id : string) (db : Session)
    : result content :=
  config ← database.get_instance_config db module_id instance_id;
  match config with
  | None =>
      Raise (HTTPException HTTP_404_NOT_FOUND
               ("No config found for instance '" +:+ instance_id
                  +:+ "' of module '" +:+ module_id +:+ "'") [])
  | Some config => Ok (ConfigContent config)
  end.

(** [body] is the JSON object of the request: the model has no declared
    field and [extra="allow"], so [body.model_dump()] is that object. *)
Definition update_instance_config (module_id instance_id : string)
    (body : gmap string json) (db : Session) : result (content * Session) :=
  let config_data := body in
  '(saved, db') ← set_instance_config db instance_id config_data;
  if (saved : bool) then Ok (SuccessResponse, db')
  else
    Raise (HTTPException HTTP_404_NOT_FOUND
             ("Instance '" +:+ instance_id +:+ "' not found in active layout profile") []).
End handlers.
End modules.

Module settings.
Section handlers.
Context `{Coercions}.

Definition get_settings (db : Session) : result content :=
  s ← database.get_settings db; Ok (SettingsContent s).

Definition update_settings (body : GlobalSettings.t) (db : Session)
    : result (content * Session) :=
  db' ← save_settings db body; Ok (SuccessResponse, db').

Definition list_themes (db : Session) : result content :=
  l ← get_themes db; Ok (ThemesContent l).

Definition upsert_theme (body : Theme.t) (db : Session) : result (content * Session) :=
  Ok (SuccessResponse, database.upsert_theme db body).
End handlers.
End settings.
End routes.

(** ** main.py: the application *)

Module main.
Import database.

(** The endpoints that the three routers register. *)
Inductive request :=
  | GET_layout
  | PUT_layout (body : UpdateLayoutRequest.t)
  | GET_layout_profiles
  | POST_layout_profiles (body : CreateProfileRequest.t)
  | DELETE_layout_profiles (name : string)
  | GET_modules
  | GET_module (module_id : string)
  | POST_modules_register (body : RegisterModuleRequest.t)
  | GET_instance_config (module_id instance_id : string)
  | PUT_instance_config (module_id instance_id : string) (body : gmap string json)
  | GET_settings
  | PUT_settings (body : GlobalSettings.t)
  | GET_themes
  | POST_themes (body : Theme.t).

(** The routes declared with [dependencies=[Depends(require_api_key)]]. *)
Definition guarded (r : request) : bool :=
  match r with
  | PUT_layout _ | POST_layout_profiles _ | DELETE_layout_profiles _
  | POST_modules_register _ | PUT_instance_config _ _ _
  | PUT_settings _ | POST_themes _ => true
  | _ => false
  end.

(** The routes that change the store: every method other than GET. *)
Definition mutating (r : request) : bool :=
  match r with
  | GET_layout | GET_layout_profiles | GET_modules | GET_module _
  | GET_instance_config _ _ | GET_settings | GET_themes => false
  | _ => true
  end.

(** [status_code] of the route decorator. *)
Definition success_status (r : request) : Z :=
  match r with
  | POST_layout_profiles _ | POST_themes _ => 201
  | _ => 200
  end.

Inductive response :=
  | JSONResponse (status_code : Z) (body : content)
  | ErrorResponse (status_code : Z) (detail : string) (headers : list (string * string)).

(** An [HTTPException] is rendered as it is; anything else goes through
    [_unhandled_exception_handler]. *)
Definition exception_handler (e : exn) : response :=
  match e with
  | HTTPException status_code detail headers => ErrorResponse status_code detail headers
  | _ => ErrorResponse 500 "An internal error occurred" []
  end.

Section app.
Context `{Coercions}.

Definition read_only (r : result content) (db : Session) : result (content * Session) :=
  c ← r; Ok (c, db).

Definition endpoint (r : request) (db : Session) : result (content * Session) :=
  match r with
  | GET_layout => read_only (routes.layout.get_layout db) db
  | PUT_layout body => routes.layout.update_layout body db
  | GET_layout_profiles => read_only (routes.layout.list_profiles db) db
  | POST_layout_profiles body => routes.layout.create_profile body db
  | DELETE_layout_profiles name => routes.layout.delete_profile name db
  | GET_modules => read_only (routes.modules.list_modules db) db
  | GET_module module_id => read_only (routes.modules.get_module module_id db) db
  | POST_modules_register body => routes.modules.register_module body db
  | GET_instance_config module_id instance_id =>
      read_only (routes.modules.get_instance_config module_id instance_id db) db
  | PUT_instance_config module_id instance_id body =>
      routes.modules.update_instance_config module_id instance_id body db
  | GET_settings => read_only (routes.settings.get_settings db) db
  | PUT_settings body => routes.settings.update_settings body db
  | GET_themes => read_only (routes.settings.list_themes db) db
  | POST_themes body => routes.settings.upsert_theme body db
  end.

(** One request: the dependencies run first, then the handler on its own
    session; an exception closes the session without a commit. *)
Definition handle (API_KEY api_key : option string) (r : request) (db : Session)
    : response * Session :=
  let outcome :=
    _ ← (if guarded r then dependencies.require_api_key API_KEY api_key else Ok ());
    endpoint r db in
  match outcome with
  | Ok (body, db') => (JSONResponse (success_status r) body, db')
  | Raise e => (exception_handler e, db)
  end.

(** A sequence of requests, each with its own [X-API-Key] header. *)
Definition serve (API_KEY : option string) (reqs : list (option string * request))
    (db : Session) : Session :=
  foldl (λ db kr, (handle API_KEY kr.1 kr.2 db).2) db reqs.
End app.
End main.

(** ** The seeded store *)

Definition seeded : database.Session := database.seed_defaults database.empty_session.

(** The seeded layout document as a [LayoutData]. *)
Definition seeded_entry : ModuleInstanceConfig.t :=
  ModuleInstanceConfig.mk "clock"
    (<["format" := JStr "HH:mm:ss"]> $ <["timezone" := JStr "UTC"]> $
     <["showDate" := JBool true]> ∅).

Definition seeded_profile : LayoutProfile.t :=
  LayoutProfile.mk
    [ GridItem.mk "clock_01" 0 0 4 3 None None None None ]
    {[ "clock_01" := seeded_entry ]}.

Definition seeded_layout : LayoutData.t :=
  LayoutData.mk "default" {[ "default" := seeded_profile ]}.

(** The seeded document with a second profile "night", a copy of "default". *)
Definition night_layout : LayoutData.t :=
  LayoutData.mk "default" (<["night" := seeded_profile]> {[ "default" := seeded_profile ]}).

Definition seeded_with_night : database.Session :=
  match database.create_profile seeded "night" "default" with
  | Ok db => db
  | Raise _ => seeded
  end.

(** A clock module as it registers itself, and again with a later manifest. *)
Definition clock_manifest : ModuleManifest.t :=
  ModuleManifest.mk "clock" "Clock" "" "1.0.0" "" None {[ "format" := JStr "HH:mm" ]}
    None None.

Definition clock_request : RegisterModuleRequest.t :=
  RegisterModuleRequest.mk "clock" "Clock" "http://clock:3001" clock_manifest "online".

Definition clock_request_v2 : RegisterModuleRequest.t :=
  RegisterModuleRequest.mk "clock" "Clock 2" "http://clock:3002"
    (ModuleManifest.mk "clock" "Clock 2" "a clock" "2.0.0" "oz" None ∅ None None)
    "online".

Definition seeded_with_clock : database.Session :=
  database.register_module seeded (module_of_request clock_request).

(** A one-character header value whose byte, 233, is above 127. *)
Definition non_ascii_key : string := String (Ascii.ascii_of_nat 233) "".

(** ** Vocabulary of the statements *)

(** The document with [profile] stored under [name]. *)
Definition put_profile (name : string) (profile : LayoutProfile.t) (layout : LayoutData.t)
    : LayoutData.t :=
  LayoutData.mk (LayoutData.activeProfile layout)
    (<[name := profile]> (LayoutData.layouts layout)).

(** The document without the profile [name]; the active profile falls back
    to "default" when it was the one removed. *)
Definition remove_profile (name : string) (layout : LayoutData.t) : LayoutData.t :=
  LayoutData.mk
    (if decide (LayoutData.activeProfile layout = name)
     then "default" else LayoutData.activeProfile layout)
    (delete name (LayoutData.layouts layout)).

(** The entry of [instance_id] in the active profile, if both exist. *)
Definition active_entry (layout : LayoutData.t) (instance_id : string)
    : option ModuleInstanceConfig.t :=
  profile ← LayoutData.layouts layout !! LayoutData.activeProfile layout;
  LayoutProfile.moduleConfigs profile !! instance_id.

(** The document in which the active profile [profile] has the [config] of
    its entry [entry] at [instance_id] replaced; [moduleId] and the grid stay. *)
Definition put_config (instance_id : string) (config : gmap string json)
    (profile : LayoutProfile.t) (entry : ModuleInstanceConfig.t) (layout : LayoutData.t)
    : LayoutData.t :=
  put_profile (LayoutData.activeProfile layout)
    (LayoutProfile.mk (LayoutProfile.grid profile)
       (<[instance_id := ModuleInstanceConfig.mk (ModuleInstanceConfig.moduleId entry) config]>
          (LayoutProfile.moduleConfigs profile)))
    layout.

(** The invariants of the layout document: it has a "default" profile and
    its active profile is one of its profiles; and of the store: the
    document loads and has both. *)
Definition well_formed (layout : LayoutData.t) : Prop :=
  is_Some (LayoutData.layouts layout !! "default") ∧
  is_Some (LayoutData.layouts layout !! LayoutData.activeProfile layout).

Definition layout_invariant `{Coercions} (db : database.Session) : Prop :=
  ∃ layout, database.get_layout db = Ok layout ∧ well_formed layout.

(** * Properties *)

(** ** Validation after [model_dump] *)

Lemma forbid_extra_subseteq fields m : dom m ⊆ fields → forbid_extra fields m = Some ().
Proof. intros Hsub. unfold forbid_extra. by rewrite bool_decide_eq_true_2. Qed.

Lemma mapM_dump {A} (f : json → option A) (g : A → json) (l : list A) :
  (∀ a, f (g a) = Some a) → mapM f (g <$> l) = Some l.
Proof.
  intros Hfg. induction l as [|a l IH]; [done|].
  cbn. rewrite Hfg. cbn. by rewrite IH.
Qed.

Lemma map_validate_lookup {A} (f : json → option A) m m' k :
  map_validate f m = Some m' → m' !! k = m !! k ≫= f.
Proof.
  unfold map_validate. case_decide; [|done].
  intros [= <-]. apply lookup_omap.
Qed.

Lemma map_validate_dom {A} (f : json → option A) m m' :
  map_validate f m = Some m' → dom m' = dom m.
Proof.
  unfold map_validate. case_decide as Hall; [|done].
  intros [= <-]. apply set_eq. intros k. rewrite !elem_of_dom, lookup_omap.
  destruct (m !! k) as [v|] eqn:Hk; cbn.
  - split; [eauto|]. intros _. exact (Hall k v Hk).
  - split; intros [? ?]; done.
Qed.

Lemma map_validate_dump {A} (f : json → option A) (g : A → json) (m : gmap string A) :
  (∀ a, f (g a) = Some a) → map_validate f (g <$> m) = Some m.
Proof.
  intros Hfg. unfold map_validate. rewrite decide_True.
  - f_equal. apply map_eq. intros k. rewrite lookup_omap, lookup_fmap.
    destruct (m !! k); cbn; [apply Hfg | done].
  - intros k v. rewrite lookup_fmap. destruct (m !! k); cbn; [|done].
    intros [= <-]. rewrite Hfg. eauto.
Qed.

Section validation.
Context `{Coercions}.

Lemma validate_optional_int o :
  validate_optional validate_int (dump_optional JInt o) = Some o.
Proof. destruct o; cbn; [|done]. by rewrite validate_int_JInt. Qed.

Lemma validate_optional_str o :
  validate_optional validate_str (dump_optional JStr o) = Some o.
Proof. destruct o; cbn; [|done]. by rewrite validate_str_JStr. Qed.

Lemma validate_optional_any_dict o :
  validate_optional validate_any_dict (dump_optional JObj o) = Some o.
Proof. by destruct o. Qed.

(** Unfolds a validator on a dumped object and reads every field back. *)
Ltac read_fields :=
  rewrite forbid_extra_subseteq by (rewrite !dom_insert_L; set_solver);
  unfold required, with_default; cbn; simplify_map_eq;
  rewrite ?validate_str_JStr, ?validate_int_JInt; cbn;
  rewrite ?validate_optional_int, ?validate_optional_str, ?validate_optional_any_dict;
  cbn.

Lemma GridItem_validate_dump g : GridItem.validate (GridItem.model_dump g) = Some g.
Proof.
  destruct g. unfold GridItem.validate, GridItem.model_dump, GridItem.fields; cbn.
  by read_fields.
Qed.

Lemma ModuleInstanceConfig_validate_dump c :
  ModuleInstanceConfig.validate (ModuleInstanceConfig.model_dump c) = Some c.
Proof.
  destruct c.
  unfold ModuleInstanceConfig.validate, ModuleInstanceConfig.model_dump,
    ModuleInstanceConfig.fields; cbn.
  by read_fields.
Qed.

Lemma LayoutProfile_validate_dump p :
  LayoutProfile.validate (LayoutProfile.model_dump p) = Some p.
Proof.
  destruct p as [grid configs].
  unfold LayoutProfile.validate, LayoutProfile.model_dump, LayoutProfile.fields; cbn.
  read_fields.
  rewrite (mapM_dump _ _ _ GridItem_validate_dump); cbn.
  by rewrite (map_validate_dump _ _ _ ModuleInstanceConfig_validate_dump).
Qed.

Lemma GridConstraints_validate_dump c :
  GridConstraints.validate (GridConstraints.model_dump c) = Some c.
Proof.
  destruct c.
  unfold GridConstraints.validate, GridConstraints.model_dump, GridConstraints.fields; cbn.
  by read_fields.
Qed.

Lemma validate_optional_GridConstraints o :
  validate_optional GridConstraints.validate (dump_optional GridConstraints.model_dump o)
  = Some o.
Proof.
  destruct o as [c|]; [|done]. cbn -[GridConstraints.validate].
  rewrite GridConstraints_validate_dump. by destruct c.
Qed.

Lemma ModuleManifest_validate_dump mf :
  ModuleManifest.validate (ModuleManifest.model_dump mf) = Some mf.
Proof.
  destruct mf.
  unfold ModuleManifest.validate, ModuleManifest.model_dump, ModuleManifest.fields; cbn.
  read_fields.
  by rewrite validate_optional_GridConstraints.
Qed.

Lemma RegisteredModule_validate_dump b :
  RegisteredModule.validate (RegisterModuleRequest.model_dump b)
  = Some (module_of_request b).
Proof.
  destruct b as [id name serviceUrl manifest status].
  pose proof (ModuleManifest_validate_dump manifest) as Hmanifest.
  unfold RegisteredModule.validate, RegisterModuleRequest.model_dump,
    RegisteredModule.fields, module_of_request.
  cbn [RegisterModuleRequest.id RegisterModuleRequest.name RegisterModuleRequest.serviceUrl
       RegisterModuleRequest.manifest RegisterModuleRequest.status].
  set (dumped := ModuleManifest.model_dump manifest) in *. clearbody dumped.
  set (validate := ModuleManifest.validate) in *. clearbody validate.
  rewrite forbid_extra_subseteq by (rewrite !dom_insert_L; set_solver).
  unfold required, with_default; cbn. simplify_map_eq.
  rewrite !validate_str_JStr; cbn. by rewrite Hmanifest.
Qed.
End validation.

(** ** Loading and saving the layout document *)

#[local] Arguments LayoutProfile.validate : simpl never.
#[local] Arguments LayoutProfile.model_dump : simpl never.
#[local] Arguments ModuleManifest.validate : simpl never.
#[local] Arguments ModuleManifest.model_dump : simpl never.

Section layout_store.
Context `{Coercions}.
Import database.

Lemma get_layout_Ok db layout :
  get_layout db = Ok layout →
  ∃ row items,
    layout_data db !! 1 = Some row ∧
    LayoutDataRow.profiles row = JObj items ∧
    LayoutDataRow.active_profile row = LayoutData.activeProfile layout ∧
    map_validate LayoutProfile.validate items = Some (LayoutData.layouts layout).
Proof.
  unfold get_layout, one. destruct (layout_data db !! 1) as [row|]; [|done]. cbn.
  destruct (LayoutDataRow.profiles row) as [| | | | |items] eqn:Hprofiles; try done.
  destruct (map_validate LayoutProfile.validate items) as [layouts|] eqn:Hitems; [|done].
  cbn. intros [= <-]. by exists row, items.
Qed.

Lemma save_layout_Ok db layout :
  is_Some (layout_data db !! 1) →
  save_layout db layout =
  Ok (set_layout_data
        (insert 1 (LayoutDataRow.mk (LayoutData.activeProfile layout)
                     (JObj (LayoutProfile.model_dump <$> LayoutData.layouts layout))))
        db).
Proof. intros [row Hrow]. unfold save_layout, one. by rewrite Hrow. Qed.

Lemma save_layout_inv db layout db' :
  save_layout db layout = Ok db' →
  db' = set_layout_data
          (insert 1 (LayoutDataRow.mk (LayoutData.activeProfile layout)
                       (JObj (LayoutProfile.model_dump <$> LayoutData.layouts layout))))
          db.
Proof.
  unfold save_layout, one. destruct (layout_data db !! 1); [|done]. by intros [= <-].
Qed.

(** What [save_layout] stored is what [get_layout] returns. *)
Lemma get_layout_save_layout db layout db' :
  save_layout db layout = Ok db' → get_layout db' = Ok layout.
Proof.
  intros ->%save_layout_inv. unfold get_layout, one, set_layout_data; cbn.
  rewrite lookup_insert_eq. cbn.
  rewrite (map_validate_dump _ _ _ LayoutProfile_validate_dump). cbn.
  by destruct layout.
Qed.

Lemma save_layout_get_layout_Ok db layout layout' :
  get_layout db = Ok layout →
  ∃ db', save_layout db layout' = Ok db' ∧ get_layout db' = Ok layout'.
Proof.
  intros (row & _ & Hrow & _)%get_layout_Ok.
  eexists. split; [apply save_layout_Ok; eauto|].
  eapply get_layout_save_layout, save_layout_Ok; eauto.
Qed.

Lemma save_layout_other_tables db layout db' :
  save_layout db layout = Ok db' →
  modules db' = modules db ∧ settings db' = settings db ∧ themes db' = themes db.
Proof. by intros ->%save_layout_inv. Qed.

(** The names [get_profiles] lists are the keys of the loaded document. *)
Lemma get_profiles_Ok db layout :
  get_layout db = Ok layout →
  ∃ names, get_profiles db = Ok names ∧
           ∀ k, k ∈ names ↔ is_Some (LayoutData.layouts layout !! k).
Proof.
  intros (row & items & Hrow & Hprofiles & _ & Hitems)%get_layout_Ok.
  exists (map_to_list items).*1. split.
  - unfold get_profiles, one. rewrite Hrow. cbn. by rewrite Hprofiles.
  - intros k. rewrite <-elem_of_dom, (map_validate_dom _ _ _ Hitems), elem_of_dom.
    rewrite list_elem_of_fmap. split.
    + intros ([k' v] & -> & Hin%elem_of_map_to_list). eauto.
    + intros [v Hv]. exists (k, v). by rewrite elem_of_map_to_list.
Qed.

Lemma map_validate_singleton {A} (f : json → option A) k v a :
  f v = Some a → map_validate f {[ k := v ]} = Some {[ k := a ]}.
Proof.
  intros Hv. unfold map_validate. rewrite decide_True.
  - f_equal. by apply omap_singleton_Some.
  - apply map_Forall_singleton. rewrite Hv. eauto.
Qed.

Lemma seed_defaults_empty :
  seed_defaults empty_session =
  mkSession {[ 1 := default_layout_row ]} ∅ {[ 1 := default_settings_row ]}
    (add_themes _BUILTIN_THEMES ∅).
Proof. reflexivity. Qed.

(** The seeded row loads, whatever the coercions are. *)
Lemma get_layout_seeded : get_layout seeded = Ok seeded_layout.
Proof.
  unfold seeded. rewrite seed_defaults_empty.
  unfold get_layout, one; cbn. rewrite lookup_singleton_eq. cbn.
  erewrite map_validate_singleton; [done|].
  unfold LayoutProfile.validate, LayoutProfile.fields.
  rewrite forbid_extra_subseteq by (rewrite !dom_insert_L; set_solver).
  unfold required; cbn. simplify_map_eq. cbn.
  unfold required, with_default. simplify_map_eq.
  rewrite !validate_str_JStr, !validate_int_JInt. cbn.
  erewrite map_validate_singleton; [done|].
  unfold ModuleInstanceConfig.validate, ModuleInstanceConfig.fields.
  rewrite forbid_extra_subseteq by (rewrite !dom_insert_L; set_solver).
  unfold required, with_default; cbn. simplify_map_eq.
  by rewrite validate_str_JStr.
Qed.
End layout_store.

(** ** The layout operations on a loaded document *)

Section layout_operations.
Context `{Coercions}.
Import database.

(** [get_layout] reads the [layout_data] table only. *)
Lemma get_layout_ext db db' :
  layout_data db' = layout_data db → get_layout db' = get_layout db.
Proof. intros Heq. unfold get_layout. by rewrite Heq. Qed.

Lemma upsert_profile_content_Ok db layout name profile :
  get_layout db = Ok layout →
  ∃ db', upsert_profile_content db name profile = Ok db' ∧
         get_layout db' = Ok (put_profile name profile layout).
Proof.
  intros Hload. unfold upsert_profile_content. rewrite Hload. cbn.
  eapply save_layout_get_layout_Ok, Hload.
Qed.

Lemma create_profile_Ok db layout name copy_from source :
  get_layout db = Ok layout →
  LayoutData.layouts layout !! copy_from = Some source →
  ∃ db', create_profile db name copy_from = Ok db' ∧
         get_layout db' = Ok (put_profile name source layout).
Proof.
  intros Hload Hsource. unfold create_profile. rewrite Hload. cbn.
  rewrite Hsource, LayoutProfile_validate_dump. cbn.
  eapply save_layout_get_layout_Ok, Hload.
Qed.

Lemma delete_profile_Ok db layout name :
  get_layout db = Ok layout →
  is_Some (LayoutData.layouts layout !! name) →
  ∃ db', delete_profile db name = Ok db' ∧
         get_layout db' = Ok (remove_profile name layout).
Proof.
  intros Hload [profile Hprofile]. unfold delete_profile. rewrite Hload. cbn.
  rewrite Hprofile. eapply save_layout_get_layout_Ok, Hload.
Qed.

Lemma set_instance_config_missing db layout instance_id config :
  get_layout db = Ok layout →
  active_entry layout instance_id = None →
  set_instance_config db instance_id config = Ok (false, db).
Proof.
  intros Hload. unfold active_entry, set_instance_config. rewrite Hload. cbn.
  destruct (LayoutData.layouts layout !! LayoutData.activeProfile layout) as [p|]; [|done].
  cbn. by intros ->.
Qed.

Lemma set_instance_config_present db layout instance_id config profile entry :
  get_layout db = Ok layout →
  LayoutData.layouts layout !! LayoutData.activeProfile layout = Some profile →
  LayoutProfile.moduleConfigs profile !! instance_id = Some entry →
  ∃ db', set_instance_config db instance_id config = Ok (true, db') ∧
         save_layout db (put_config instance_id config profile entry layout) = Ok db' ∧
         get_layout db' = Ok (put_config instance_id config profile entry layout).
Proof.
  intros Hload Hprofile Hentry. unfold set_instance_config. rewrite Hload. cbn.
  rewrite Hprofile, Hentry.
  destruct (save_layout_get_layout_Ok db layout
              (put_config instance_id config profile entry layout) Hload)
    as (db' & Hsave & Hload').
  exists db'. unfold put_config, put_profile, ModuleInstanceConfig.set_config in *.
  by rewrite Hsave.
Qed.
End layout_operations.

(** ** The layout aggregate *)

Section layout_claims.
Context `{Coercions}.
Import database.

Lemma active_entry_None layout instance_id :
  active_entry layout instance_id = None ↔
  LayoutData.layouts layout !! LayoutData.activeProfile layout = None ∨
  ∃ profile,
    LayoutData.layouts layout !! LayoutData.activeProfile layout = Some profile ∧
    LayoutProfile.moduleConfigs profile !! instance_id = None.
Proof.
  unfold active_entry.
  destruct (LayoutData.layouts layout !! LayoutData.activeProfile layout) as [p|]; cbn.
  - split; [eauto|]. by intros [|(p' & [= <-] & ?)].
  - split; eauto.
Qed.

(** C6. Round trip of the layout document: when [get_layout] returns a
    document, saving that document back succeeds and a second [get_layout]
    returns the same document (same active profile, same profiles with the
    same grids and module configs); the other tables are not touched. *)
Theorem save_layout_get_layout_roundtrip db layout :
  get_layout db = Ok layout →
  ∃ db', save_layout db layout = Ok db' ∧
         get_layout db' = Ok layout ∧
         modules db' = modules db ∧ settings db' = settings db ∧ themes db' = themes db.
Proof.
  intros Hload.
  destruct (save_layout_get_layout_Ok db layout layout Hload) as (db' & Hsave & Hload').
  destruct (save_layout_other_tables db layout db' Hsave) as (? & ? & ?).
  by exists db'.
Qed.

(** The stored JSON need not survive the round trip: the seeded grid item
    has five keys, the saved one all nine. *)
Example save_layout_rewrites_seeded_row :
  ∃ db', save_layout seeded seeded_layout = Ok db' ∧ layout_data db' ≠ layout_data seeded.
Proof.
  destruct (save_layout_get_layout_Ok seeded seeded_layout seeded_layout get_layout_seeded)
    as (db' & Hsave & _).
  exists db'. split; [done|]. apply save_layout_inv in Hsave as ->.
  intros Heq. apply (f_equal (λ tbl, LayoutDataRow.profiles <$> (tbl !! 1))) in Heq.
  vm_compute in Heq. discriminate Heq.
Qed.

(** C1. The resolution of an instance config.  With the layout document
    loaded: no active profile gives 404; an entry for [instance_id] in the
    active profile gives that entry's config, whatever [moduleId] the entry
    stores; otherwise the registry is asked for the [module_id] of the
    request, and its manifest's [defaultConfig] is returned when a row
    exists, 404 when none does. *)
Theorem get_instance_config_fallback_chain db layout module_id instance_id :
  get_layout db = Ok layout →
  let response := routes.modules.get_instance_config module_id instance_id db in
  let not_found : result content :=
    Raise (HTTPException 404
             ("No config found for instance '" +:+ instance_id
                +:+ "' of module '" +:+ module_id +:+ "'") []) in
  match LayoutData.layouts layout !! LayoutData.activeProfile layout with
  | None => response = not_found
  | Some profile =>
      match LayoutProfile.moduleConfigs profile !! instance_id with
      | Some entry => response = Ok (ConfigContent (ModuleInstanceConfig.config entry))
      | None =>
          match modules db !! module_id with
          | None => response = not_found
          | Some row =>
              ∀ manifest,
                ModuleManifest.validate (ModuleRow.manifest row) = Some manifest →
                response = Ok (ConfigContent (ModuleManifest.defaultConfig manifest))
          end
      end
  end.
Proof.
  intros Hload. cbn zeta.
  unfold routes.modules.get_instance_config, get_instance_config. rewrite Hload. cbn.
  destruct (LayoutData.layouts layout !! LayoutData.activeProfile layout) as [profile|];
    [|done].
  destruct (LayoutProfile.moduleConfigs profile !! instance_id) as [entry|]; [done|].
  unfold get_module.
  destruct (modules db !! module_id) as [row|]; [|done].
  intros manifest Hmanifest. unfold row_to_module. by rewrite Hmanifest.
Qed.

(** C4. Updating an instance config.  When the active profile is missing
    or has no entry for [instance_id], [set_instance_config] returns
    [False] with the session as it was, and the route answers 404.  When
    the entry exists, the call returns [True]; the stored row is the dump
    of the document in which only the [config] of that entry changed, so
    the set of instance ids of the profile is the same as before. *)
Theorem set_instance_config_only_updates db layout module_id instance_id config :
  get_layout db = Ok layout →
  (LayoutData.layouts layout !! LayoutData.activeProfile layout = None ∨
   (∃ profile,
      LayoutData.layouts layout !! LayoutData.activeProfile layout = Some profile ∧
      LayoutProfile.moduleConfigs profile !! instance_id = None) →
   set_instance_config db instance_id config = Ok (false, db) ∧
   routes.modules.update_instance_config module_id instance_id config db =
     Raise (HTTPException 404
              ("Instance '" +:+ instance_id +:+ "' not found in active layout profile") []))
  ∧
  (∀ profile entry,
     LayoutData.layouts layout !! LayoutData.activeProfile layout = Some profile →
     LayoutProfile.moduleConfigs profile !! instance_id = Some entry →
     let layout' := put_config instance_id config profile entry layout in
     ∃ db',
       set_instance_config db instance_id config = Ok (true, db') ∧
       routes.modules.update_instance_config module_id instance_id config db =
         Ok (SuccessResponse, db') ∧
       layout_data db' !! 1 =
         Some (LayoutDataRow.mk (LayoutData.activeProfile layout)
                 (JObj (LayoutProfile.model_dump <$> LayoutData.layouts layout'))) ∧
       get_layout db' = Ok layout' ∧
       (∀ profile',
          LayoutData.layouts layout' !! LayoutData.activeProfile layout = Some profile' →
          dom (LayoutProfile.moduleConfigs profile') = dom (LayoutProfile.moduleConfigs profile))).
Proof.
  intros Hload. split.
  - intros Hmissing%active_entry_None.
    pose proof (set_instance_config_missing db layout instance_id config Hload Hmissing)
      as Hset.
    split; [done|]. unfold routes.modules.update_instance_config. by rewrite Hset.
  - intros profile entry Hprofile Hentry layout'.
    destruct (set_instance_config_present db layout instance_id config profile entry
                Hload Hprofile Hentry) as (db' & Hset & Hsave & Hload').
    exists db'. split; [done|]. split.
    { unfold routes.modules.update_instance_config. by rewrite Hset. }
    split.
    { apply save_layout_inv in Hsave as ->. cbn. by rewrite lookup_insert_eq. }
    split; [done|].
    intros profile'. unfold layout', put_config, put_profile; cbn.
    rewrite lookup_insert_eq. intros [= <-]. cbn.
    rewrite dom_insert_L. apply subseteq_union_1_L, singleton_subseteq_l, elem_of_dom.
    eauto.
Qed.

(** C3. Deleting a profile.  The name "default" is refused with 400
    before the store is read.  For another name and a loaded document:
    404 when the name is not a profile; otherwise the profile is removed
    and the active profile becomes "default" if it was the removed one. *)
Theorem delete_profile_outcomes db name :
  (name = "default" →
   routes.layout.delete_profile name db =
     Raise (HTTPException 400 "The 'default' profile cannot be deleted" [])) ∧
  (name ≠ "default" →
   ∀ layout, get_layout db = Ok layout →
     match LayoutData.layouts layout !! name with
     | None =>
         routes.layout.delete_profile name db =
           Raise (HTTPException 404 ("Profile '" +:+ name +:+ "' not found") [])
     | Some _ =>
         ∃ db',
           routes.layout.delete_profile name db = Ok (SuccessResponse, db') ∧
           get_layout db' =
             Ok (LayoutData.mk
                   (if decide (LayoutData.activeProfile layout = name)
                    then "default" else LayoutData.activeProfile layout)
                   (delete name (LayoutData.layouts layout)))
     end).
Proof.
  unfold routes.layout.delete_profile. split.
  - intros ->. by rewrite decide_True.
  - intros Hname layout Hload. rewrite decide_False by done.
    destruct (get_profiles_Ok db layout Hload) as (names & -> & Hnames). cbn.
    destruct (LayoutData.layouts layout !! name) as [profile|] eqn:Hprofile.
    + rewrite decide_False by (intros Hnot; apply Hnot, Hnames; eauto).
      destruct (delete_profile_Ok db layout name Hload) as (db' & Hdel & Hload'); [eauto|].
      exists db'. by rewrite Hdel.
    + rewrite decide_True; [done|]. rewrite Hnames, Hprofile. by intros [? ?].
Qed.

(** C7. Creating a profile.  With the document loaded: 409 when [name]
    is a profile; else 404 when [copyFrom] is not one; else the document
    gains under [name] a profile equal to the source, with the active
    profile and all other profiles as they were.  The copy and the source
    are independent: replacing the content of either afterwards leaves
    the other as it was. *)
Theorem create_profile_outcomes db layout body :
  get_layout db = Ok layout →
  let name := CreateProfileRequest.name body in
  let copyFrom := CreateProfileRequest.copyFrom body in
  let response := routes.layout.create_profile body db in
  match LayoutData.layouts layout !! name, LayoutData.layouts layout !! copyFrom with
  | Some _, _ =>
      response =
        Raise (HTTPException 409 ("Profile '" +:+ name +:+ "' already exists") [])
  | None, None =>
      response =
        Raise (HTTPException 404 ("Source profile '" +:+ copyFrom +:+ "' not found") [])
  | None, Some source =>
      ∃ db',
        response = Ok (SuccessResponse, db') ∧
        get_layout db' =
          Ok (LayoutData.mk (LayoutData.activeProfile layout)
                (<[name := source]> (LayoutData.layouts layout))) ∧
        ∀ profile,
          (∃ db'' layout'',
             upsert_profile_content db' name profile = Ok db'' ∧
             get_layout db'' = Ok layout'' ∧
             LayoutData.layouts layout'' !! name = Some profile ∧
             LayoutData.layouts layout'' !! copyFrom = Some source) ∧
          (∃ db'' layout'',
             upsert_profile_content db' copyFrom profile = Ok db'' ∧
             get_layout db'' = Ok layout'' ∧
             LayoutData.layouts layout'' !! copyFrom = Some profile ∧
             LayoutData.layouts layout'' !! name = Some source)
  end.
Proof.
  intros Hload name copyFrom response. unfold response, routes.layout.create_profile.
  destruct (get_profiles_Ok db layout Hload) as (names & -> & Hnames). cbn.
  fold name copyFrom.
  destruct (LayoutData.layouts layout !! name) as [existing|] eqn:Hname.
  { rewrite decide_True; [done|]. apply Hnames. eauto. }
  rewrite decide_False by (rewrite Hnames, Hname; by intros [? ?]).
  destruct (LayoutData.layouts layout !! copyFrom) as [source|] eqn:Hsource.
  2:{ rewrite decide_True; [done|]. rewrite Hnames, Hsource. by intros [? ?]. }
  rewrite decide_False by (intros Hnot; apply Hnot, Hnames; eauto).
  assert (name ≠ copyFrom) as Hne by congruence.
  destruct (create_profile_Ok db layout name copyFrom source Hload Hsource)
    as (db' & Hcreate & Hload').
  exists db'. rewrite Hcreate. split; [done|]. split; [done|].
  intros profile. split.
  - destruct (upsert_profile_content_Ok db' _ name profile Hload')
      as (db'' & Hupsert & Hload'').
    exists db''. eexists. split; [done|]. split; [done|].
    unfold put_profile; cbn. split.
    + by rewrite lookup_insert_eq.
    + by rewrite !lookup_insert_ne.
  - destruct (upsert_profile_content_Ok db' _ copyFrom profile Hload')
      as (db'' & Hupsert & Hload'').
    exists db''. eexists. split; [done|]. split; [done|].
    unfold put_profile; cbn. split.
    + by rewrite lookup_insert_eq.
    + by rewrite lookup_insert_ne, lookup_insert_eq.
Qed.
End layout_claims.

(** ** The invariants of the layout document *)

Section invariants.
Context `{Coercions}.
Import database main.

Lemma put_profile_well_formed name profile layout :
  well_formed layout → well_formed (put_profile name profile layout).
Proof.
  unfold well_formed, put_profile; cbn. intros [Hdefault Hactive].
  split; apply lookup_insert_is_Some'; eauto.
Qed.

Lemma remove_profile_well_formed name layout :
  name ≠ "default" → well_formed layout → well_formed (remove_profile name layout).
Proof.
  unfold well_formed, remove_profile; cbn. intros Hname [Hdefault Hactive].
  assert (is_Some (delete name (LayoutData.layouts layout) !! "default")) as Hdefault'.
  { by rewrite lookup_delete_ne. }
  split; [done|]. case_decide as Hactive'; [done|].
  rewrite lookup_delete_ne; [done|]. congruence.
Qed.

Lemma put_config_well_formed instance_id config profile entry layout :
  well_formed layout → well_formed (put_config instance_id config profile entry layout).
Proof. apply put_profile_well_formed. Qed.

Lemma layout_invariant_ext db db' :
  layout_data db' = layout_data db → layout_invariant db → layout_invariant db'.
Proof.
  intros Heq (layout & Hload & Hwf). exists layout.
  by rewrite (get_layout_ext db db' Heq).
Qed.

Lemma read_only_session (r : result content) db body db' :
  read_only r db = Ok (body, db') → db' = db.
Proof. unfold read_only. destruct r; cbn; [|done]. by intros [= _ <-]. Qed.

Lemma endpoint_layout_invariant r db body db' :
  layout_invariant db → endpoint r db = Ok (body, db') → layout_invariant db'.
Proof.
  intros Hinv. pose proof Hinv as (layout & Hload & Hwf).
  destruct r; cbn; try (by intros ->%read_only_session).
  - (* PUT /layout *)
    unfold routes.layout.update_layout.
    edestruct upsert_profile_content_Ok as (db1 & -> & Hload1); [exact Hload|].
    cbn. intros [= _ <-]. eexists. split; [exact Hload1|].
    by apply put_profile_well_formed.
  - (* POST /layout/profiles *)
    unfold routes.layout.create_profile.
    destruct (get_profiles_Ok db layout Hload) as (names & -> & Hnames). cbn.
    case_decide; [done|]. case_decide as Hsource; [done|].
    apply Hnames in Hsource as [source Hsource].
    edestruct create_profile_Ok as (db1 & -> & Hload1); [exact Hload|exact Hsource|].
    cbn. intros [= _ <-]. eexists. split; [exact Hload1|].
    by apply put_profile_well_formed.
  - (* DELETE /layout/profiles/{name} *)
    unfold routes.layout.delete_profile.
    case_decide as Hname; [done|].
    destruct (get_profiles_Ok db layout Hload) as (names & -> & Hnames). cbn.
    case_decide as Hprofile; [done|].
    apply Hnames in Hprofile.
    edestruct delete_profile_Ok as (db1 & -> & Hload1); [exact Hload|exact Hprofile|].
    cbn. intros [= _ <-]. eexists. split; [exact Hload1|].
    by apply remove_profile_well_formed.
  - (* POST /modules/register *)
    unfold routes.modules.register_module.
    destruct (construct _) as [module|]; cbn; [|done]. intros [= _ <-].
    apply (layout_invariant_ext db); [|done].
    unfold register_module. by destruct (modules db !! _).
  - (* PUT /modules/{module_id}/config/{instance_id} *)
    unfold routes.modules.update_instance_config.
    destruct (active_entry layout instance_id) as [entry|] eqn:Hentry.
    + unfold active_entry in Hentry.
      destruct (LayoutData.layouts layout !! LayoutData.activeProfile layout)
        as [profile|] eqn:Hprofile; [|done]. cbn in Hentry.
      edestruct set_instance_config_present as (db1 & -> & _ & Hload1);
        [exact Hload|exact Hprofile|exact Hentry|].
      cbn. intros [= _ <-]. eexists. split; [exact Hload1|].
      by apply put_config_well_formed.
    + by rewrite (set_instance_config_missing db layout _ _ Hload Hentry).
  - (* PUT /settings *)
    unfold routes.settings.update_settings, save_settings.
    destruct (one (settings db) 1); cbn; [|done]. intros [= _ <-].
    by apply (layout_invariant_ext db).
  - (* POST /themes *)
    unfold routes.settings.upsert_theme. intros [= _ <-].
    apply (layout_invariant_ext db); [|done].
    unfold upsert_theme. by destruct (themes db !! _).
Qed.

Lemma handle_layout_invariant API_KEY api_key r db :
  layout_invariant db → layout_invariant (handle API_KEY api_key r db).2.
Proof.
  intros Hinv. unfold handle.
  destruct (if guarded r then _ else _) as [[]|e]; cbn; [|done].
  destruct (endpoint r db) as [[body db']|e] eqn:Hendpoint; [|done].
  cbn. eapply endpoint_layout_invariant; eauto.
Qed.

Lemma serve_layout_invariant API_KEY reqs db :
  layout_invariant db → layout_invariant (serve API_KEY reqs db).
Proof.
  unfold serve. revert db. induction reqs as [|[api_key r] reqs IH]; intros db Hinv.
  - done.
  - cbn. by apply IH, handle_layout_invariant.
Qed.

(** C2. After any sequence of requests served from the seeded store, with
    any key configuration and any keys sent, the layout document loads,
    has a "default" profile, and its active profile is one of its
    profiles. *)
Theorem layout_invariant_from_seed API_KEY reqs :
  layout_invariant (serve API_KEY reqs seeded).
Proof.
  apply serve_layout_invariant. exists seeded_layout.
  split; [apply get_layout_seeded|].
  split; cbn; by rewrite lookup_singleton_eq.
Qed.
End invariants.

(** ** Seeding *)

Section seeding.
Import database.

Lemma count_insert_ne_0 {K} `{Countable K} {A} (tbl : gmap K A) k r :
  count (<[k := r]> tbl) ≠ 0%nat.
Proof.
  unfold count. intros Hsize%map_size_empty_inv.
  by apply insert_non_empty in Hsize.
Qed.

Lemma count_0 {K} `{Countable K} {A} (tbl : gmap K A) : count tbl = 0%nat ↔ tbl = ∅.
Proof. apply map_size_empty_iff. Qed.

Lemma add_themes_builtin :
  add_themes _BUILTIN_THEMES ∅ = list_to_map _BUILTIN_THEMES.
Proof. vm_compute. reflexivity. Qed.

Lemma count_builtin_themes : count (add_themes _BUILTIN_THEMES ∅) = 3%nat.
Proof. vm_compute. reflexivity. Qed.

(** Each table is seeded on its own, and only when it is empty. *)
Lemma seed_defaults_tables db :
  settings (seed_defaults db) =
    (if decide (settings db = ∅) then {[ 1 := default_settings_row ]} else settings db) ∧
  layout_data (seed_defaults db) =
    (if decide (layout_data db = ∅) then {[ 1 := default_layout_row ]}
     else layout_data db) ∧
  themes (seed_defaults db) =
    (if decide (themes db = ∅) then list_to_map _BUILTIN_THEMES else themes db) ∧
  modules (seed_defaults db) = modules db.
Proof.
  destruct db as [l m s t]. unfold seed_defaults, count. cbn [settings].
  destruct (decide (size s = 0%nat)) as [Hs|Hs]; cbn;
    destruct (decide (size l = 0%nat)) as [Hl|Hl]; cbn;
    destruct (decide (size t = 0%nat)) as [Ht|Ht]; cbn;
    rewrite map_size_empty_iff in Hs; rewrite map_size_empty_iff in Hl;
    rewrite map_size_empty_iff in Ht;
    subst; rewrite ?insert_empty; repeat case_decide; by try congruence.
Qed.

Lemma seeded_table_non_empty {K} `{Countable K} {A} (tbl rows : gmap K A) :
  rows ≠ ∅ → (if decide (tbl = ∅) then rows else tbl) ≠ ∅.
Proof. intros Hrows. by destruct (decide (tbl = ∅)). Qed.

Lemma session_eq db db' :
  layout_data db = layout_data db' → modules db = modules db' →
  settings db = settings db' → themes db = themes db' → db = db'.
Proof. destruct db, db'; cbn. by intros -> -> -> ->. Qed.

(** C5. Seeding twice is seeding once.  From the empty store it leaves
    one settings row with the documented defaults, one layout row whose
    active profile is "default" and whose only profile is "default", and
    the three built-in themes under their three ids.  A table that
    already holds a row is left as it is. *)
Theorem seed_defaults_idempotent :
  (∀ db, seed_defaults (seed_defaults db) = seed_defaults db) ∧
  seed_defaults empty_session =
    mkSession
      {[ 1 := LayoutDataRow.mk "default" _DEFAULT_LAYOUT_PROFILES ]}
      ∅
      {[ 1 := SettingsRow.mk "dark" false 3000 1 false ]}
      (list_to_map _BUILTIN_THEMES) ∧
  (∃ profile, _DEFAULT_LAYOUT_PROFILES = JObj {[ "default" := profile ]}) ∧
  (count (settings (seed_defaults empty_session)) = 1%nat ∧
   count (layout_data (seed_defaults empty_session)) = 1%nat ∧
   count (themes (seed_defaults empty_session)) = length _BUILTIN_THEMES ∧
   dom (themes (seed_defaults empty_session)) = {[ "dark"; "light"; "amoled" ]}) ∧
  (∀ db, count (settings db) ≠ 0%nat → settings (seed_defaults db) = settings db) ∧
  (∀ db, count (layout_data db) ≠ 0%nat →
         layout_data (seed_defaults db) = layout_data db) ∧
  (∀ db, count (themes db) ≠ 0%nat → themes (seed_defaults db) = themes db).
Proof.
  split; [|split; [|split; [|split; [|split; [|split]]]]].
  - intros db.
    destruct (seed_defaults_tables db) as (Hs & Hl & Ht & Hm).
    destruct (seed_defaults_tables (seed_defaults db)) as (Hs' & Hl' & Ht' & Hm').
    apply session_eq; [rewrite Hl'|by rewrite Hm'|rewrite Hs'|rewrite Ht'].
    + rewrite decide_False; [done|]. rewrite Hl.
      apply seeded_table_non_empty, map_non_empty_singleton.
    + rewrite decide_False; [done|]. rewrite Hs.
      apply seeded_table_non_empty, map_non_empty_singleton.
    + rewrite decide_False; [done|]. rewrite Ht.
      apply seeded_table_non_empty, insert_non_empty.
  - reflexivity.
  - by eexists.
  - repeat split; reflexivity.
  - intros db Hcount. rewrite count_0 in Hcount.
    destruct (seed_defaults_tables db) as (-> & _). by rewrite decide_False.
  - intros db Hcount. rewrite count_0 in Hcount.
    destruct (seed_defaults_tables db) as (_ & -> & _). by rewrite decide_False.
  - intros db Hcount. rewrite count_0 in Hcount.
    destruct (seed_defaults_tables db) as (_ & _ & -> & _). by rewrite decide_False.
Qed.
End seeding.

(** ** The module registry *)

Section registry.
Context `{Coercions}.
Import database.

Lemma register_module_modules db (module : RegisteredModule.t) :
  modules (register_module db module) =
  <[RegisteredModule.id module :=
      ModuleRow.mk (RegisteredModule.name module) (RegisteredModule.serviceUrl module)
        (ModuleManifest.model_dump (RegisteredModule.manifest module))
        (RegisteredModule.status module)]> (modules db).
Proof. unfold register_module. by destruct (modules db !! _). Qed.

Lemma get_module_register_module db (module : RegisteredModule.t) :
  get_module (register_module db module) (RegisteredModule.id module) = Ok (Some module).
Proof.
  unfold get_module. rewrite register_module_modules, lookup_insert_eq.
  unfold row_to_module; cbn. rewrite ModuleManifest_validate_dump. cbn.
  by destruct module.
Qed.

Lemma route_register_module_Ok body db :
  routes.modules.register_module body db =
  Ok (SuccessResponse, register_module db (module_of_request body)).
Proof.
  unfold routes.modules.register_module. by rewrite RegisteredModule_validate_dump.
Qed.

(** C8. Registration is an upsert by id.  The row stored under the id is
    built from the request alone, whether or not a row was there; the rows
    of other ids stay.  [get_module] then returns the request's fields, so
    after a second registration under the same id it returns the second
    request in full. *)
Theorem register_module_replaces db body :
  ∃ db',
    routes.modules.register_module body db = Ok (SuccessResponse, db') ∧
    modules db' =
      <[RegisterModuleRequest.id body :=
          ModuleRow.mk (RegisterModuleRequest.name body)
            (RegisterModuleRequest.serviceUrl body)
            (ModuleManifest.model_dump (RegisterModuleRequest.manifest body))
            (RegisterModuleRequest.status body)]> (modules db) ∧
    get_module db' (RegisterModuleRequest.id body) = Ok (Some (module_of_request body)) ∧
    ∀ body2,
      RegisterModuleRequest.id body2 = RegisterModuleRequest.id body →
      ∃ db'',
        routes.modules.register_module body2 db' = Ok (SuccessResponse, db'') ∧
        get_module db'' (RegisterModuleRequest.id body) =
          Ok (Some (module_of_request body2)) ∧
        routes.modules.get_module (RegisterModuleRequest.id body) db'' =
          Ok (ModuleContent (module_of_request body2)).
Proof.
  exists (register_module db (module_of_request body)).
  split; [apply route_register_module_Ok|].
  split; [apply register_module_modules|].
  split; [apply (get_module_register_module db (module_of_request body))|].
  intros body2 Hid. eexists. split; [apply route_register_module_Ok|].
  unfold routes.modules.get_module. rewrite <-Hid.
  by rewrite (get_module_register_module _ (module_of_request body2)).
Qed.
End registry.

(** ** The API-key gate *)

Section gate.
Context `{Coercions}.
Import database main dependencies.

(** Every route that is not a GET carries the dependency. *)
Lemma guarded_mutating r : guarded r = mutating r.
Proof. by destruct r. Qed.

(** Without a configured secret every guarded request is answered 500. *)
Lemma require_api_key_unconfigured API_KEY api_key :
  API_KEY = None ∨ API_KEY = Some "" →
  require_api_key API_KEY api_key =
    Raise (HTTPException 500 "Service not configured for authenticated requests" []).
Proof. by intros [-> | ->]. Qed.

(** The gate lets a request through only with the configured key. *)
Lemma require_api_key_Ok API_KEY api_key :
  require_api_key API_KEY api_key = Ok () →
  ∃ key, API_KEY = Some key ∧ api_key = Some key ∧ key ≠ "".
Proof.
  unfold require_api_key, compare_digest.
  destruct API_KEY as [expected|]; cbn; [|done].
  case_decide as Hexpected; [done|].
  destruct api_key as [key|]; [|done].
  case_decide; [done|].
  destruct (is_ascii key && is_ascii expected); cbn; [|done].
  case_bool_decide; [|done]. subst. eauto.
Qed.

(** A missing key, or an ASCII key other than the ASCII secret, is
    answered 401 with the challenge header. *)
Lemma require_api_key_unauthorized expected api_key :
  expected ≠ "" → is_ascii expected = true →
  match api_key with
  | None => True
  | Some key => is_ascii key = true ∧ key ≠ expected
  end →
  require_api_key (Some expected) api_key =
    Raise (HTTPException 401 "Invalid or missing API key"
             [("WWW-Authenticate", "ApiKey")]).
Proof.
  intros Hexpected Hascii Hkey. unfold require_api_key, compare_digest; cbn.
  rewrite decide_False by done.
  destruct api_key as [key|]; [|done]. destruct Hkey as [Hkey Hne].
  case_decide; [done|]. rewrite Hkey, Hascii. cbn.
  by rewrite bool_decide_eq_false_2.
Qed.

(** A rejected request leaves the store as it was. *)
Lemma handle_rejected API_KEY api_key r db e :
  guarded r = true → require_api_key API_KEY api_key = Raise e →
  handle API_KEY api_key r db = (exception_handler e, db).
Proof. intros Hguarded Hgate. unfold handle. by rewrite Hguarded, Hgate. Qed.

(** C9, evaluated at a key with a byte above 127: with the secret
    configured as "secret" the comparison raises, and the guarded request is
    answered with the generic 500 and no challenge header, not with 401. *)
Theorem require_api_key_non_ascii_key :
  require_api_key (Some "secret") (Some non_ascii_key) = Raise TypeError ∧
  handle (Some "secret") (Some non_ascii_key) (DELETE_layout_profiles "default") seeded =
    (ErrorResponse 500 "An internal error occurred" [], seeded).
Proof. split; reflexivity. Qed.

(** C10. The [module_id] of the path does not reach the update of an
    instance config: two requests that differ in it only get the same
    response and leave the same store. *)
Theorem update_instance_config_ignores_module_id
    API_KEY api_key module_id1 module_id2 instance_id body db :
  handle API_KEY api_key (PUT_instance_config module_id1 instance_id body) db =
  handle API_KEY api_key (PUT_instance_config module_id2 instance_id body) db.
Proof.
  unfold handle. cbn [guarded success_status endpoint].
  unfold routes.modules.update_instance_config.
  reflexivity.
Qed.
End gate.

(** ** Instances on concrete stores *)

Section concrete.
Import database.

Lemma get_layout_seeded_with_night : get_layout seeded_with_night = Ok night_layout.
Proof. vm_compute. reflexivity. Qed.

Lemma get_layout_seeded_with_clock : get_layout seeded_with_clock = Ok seeded_layout.
Proof. vm_compute. reflexivity. Qed.

Lemma save_layout_get_layout_roundtrip_seeded :
  get_layout seeded = Ok seeded_layout ∧
  ∃ db', save_layout seeded seeded_layout = Ok db' ∧
         get_layout db' = Ok seeded_layout ∧
         modules db' = modules seeded ∧ settings db' = settings seeded ∧
         themes db' = themes seeded.
Proof.
  split; [exact get_layout_seeded|].
  exact (save_layout_get_layout_roundtrip seeded seeded_layout get_layout_seeded).
Defined.

Lemma get_instance_config_fallback_chain_clock :
  get_layout seeded_with_clock = Ok seeded_layout ∧
  routes.modules.get_instance_config "clock" "missing_id" seeded_with_clock =
    Ok (ConfigContent {[ "format" := JStr "HH:mm" ]}).
Proof.
  split; [exact get_layout_seeded_with_clock|].
  assert (ModuleManifest.validate (ModuleManifest.model_dump clock_manifest)
          = Some clock_manifest) as Hmanifest by (vm_compute; reflexivity).
  exact (get_instance_config_fallback_chain seeded_with_clock seeded_layout
           "clock" "missing_id" get_layout_seeded_with_clock clock_manifest Hmanifest).
Defined.

Lemma set_instance_config_only_updates_seeded :
  get_layout seeded = Ok seeded_layout ∧
  set_instance_config seeded "weather_01" {[ "units" := JStr "metric" ]} =
    Ok (false, seeded) ∧
  ∃ db', set_instance_config seeded "clock_01" {[ "format" := JStr "HH:mm" ]} =
           Ok (true, db') ∧
         get_layout db' =
           Ok (put_config "clock_01" {[ "format" := JStr "HH:mm" ]}
                 seeded_profile seeded_entry seeded_layout).
Proof.
  split; [exact get_layout_seeded|].
  assert (LayoutData.layouts seeded_layout !! LayoutData.activeProfile seeded_layout
          = Some seeded_profile) as Hprofile by reflexivity.
  assert (LayoutProfile.moduleConfigs seeded_profile !! "clock_01" = Some seeded_entry)
    as Hentry by reflexivity.
  assert (LayoutProfile.moduleConfigs seeded_profile !! "weather_01" = None)
    as Hmissing by reflexivity.
  split.
  - apply (set_instance_config_only_updates seeded seeded_layout
             "weather" "weather_01" {[ "units" := JStr "metric" ]} get_layout_seeded).
    right. exists seeded_profile. by split.
  - destruct (proj2 (set_instance_config_only_updates seeded seeded_layout
                       "clock" "clock_01" {[ "format" := JStr "HH:mm" ]}
                       get_layout_seeded)
                seeded_profile seeded_entry Hprofile Hentry)
      as (db' & Hset & _ & _ & Hload & _).
    exists db'. by split.
Defined.

Lemma delete_profile_outcomes_night :
  "night" ≠ "default" ∧
  get_layout seeded_with_night = Ok night_layout ∧
  ∃ db', routes.layout.delete_profile "night" seeded_with_night =
           Ok (SuccessResponse, db') ∧
         get_layout db' = Ok seeded_layout.
Proof.
  assert ("night" ≠ "default") as Hname by done.
  split; [exact Hname|]. split; [exact get_layout_seeded_with_night|].
  exact (proj2 (delete_profile_outcomes seeded_with_night "night") Hname night_layout
           get_layout_seeded_with_night).
Defined.

Lemma create_profile_outcomes_night :
  get_layout seeded = Ok seeded_layout ∧
  ∃ db', routes.layout.create_profile (CreateProfileRequest.mk "night" "default") seeded =
           Ok (SuccessResponse, db') ∧
         get_layout db' = Ok night_layout.
Proof.
  split; [exact get_layout_seeded|].
  destruct (create_profile_outcomes seeded seeded_layout
              (CreateProfileRequest.mk "night" "default") get_layout_seeded)
    as (db' & Hroute & Hload & _).
  exists db'. by split.
Defined.

Lemma register_module_replaces_clock :
  RegisterModuleRequest.id clock_request_v2 = RegisterModuleRequest.id clock_request ∧
  ∃ db' db'',
    routes.modules.register_module clock_request seeded = Ok (SuccessResponse, db') ∧
    routes.modules.register_module clock_request_v2 db' = Ok (SuccessResponse, db'') ∧
    get_module db'' "clock" = Ok (Some (module_of_request clock_request_v2)).
Proof.
  split; [reflexivity|].
  destruct (register_module_replaces seeded clock_request)
    as (db' & Hfirst & _ & _ & Hsecond).
  destruct (Hsecond clock_request_v2 eq_refl) as (db'' & Hroute & Hget & _).
  exists db', db''. by split.
Defined.

Lemma seed_defaults_idempotent_seeded :
  count (settings seeded) ≠ 0%nat ∧
  settings (seed_defaults seeded) = settings seeded.
Proof.
  assert (count (settings seeded) ≠ 0%nat) as Hcount by (vm_compute; discriminate).
  split; [exact Hcount|].
  exact (proj1 (proj2 (proj2 (proj2 (proj2 seed_defaults_idempotent)))) seeded Hcount).
Defined.
End concrete.
